(** * Split GPU placement of the PPO trainer

    A shallow embedding of [TaskRunnerSplit.init_resource_pool_mgr]
    (verl/trainer/main_ppo_split.py) and the properties of the placement
    plan it computes.

    Python integers are unbounded, so they are [Z]; [%] and [//] with the
    positive divisor 2 are the flooring [Z.modulo] and [Z.div].  The
    method reads the configuration object, mutates the role table
    [self.mapping] in place and may raise [ValueError]: it is embedded in
    a state-and-exception monad over the role table.  The three [print]
    calls only write to standard output and are left out. *)

From stdpp Require Import base gmap strings list fin_maps.

Open Scope Z_scope.

(** ** Roles *)

(** Modelled from the spec: the [Role] enumeration of
    verl.trainer.ppo.ray_trainer is not in src/; the data model lists the
    tags ActorRollout, Critic, RewardModel and Reference. *)
Inductive Role : Set := ActorRollout | Critic | RewardModel | Reference.

#[global] Instance Role_eq_dec : EqDecision Role.
Proof. solve_decision. Defined.

Definition Role_to_nat (r : Role) : nat :=
  match r with
  | ActorRollout => 0 | Critic => 1 | RewardModel => 2 | Reference => 3
  end%nat.

Definition Role_of_nat (n : nat) : option Role :=
  match n with
  | 0 => Some ActorRollout | 1 => Some Critic
  | 2 => Some RewardModel | 3 => Some Reference
  | _ => None
  end%nat.

#[global] Instance Role_countable : Countable Role.
Proof.
  apply (inj_countable Role_to_nat Role_of_nat).
  by intros [].
Defined.

(** ** The configuration object *)

(** [config.trainer]: the shape of the primary cluster. *)
Module TrainerConfig.
Record t : Set := Build { n_gpus_per_node : Z; nnodes : Z }.
End TrainerConfig.

(** [config.reward_model]: the optional pool of the reward model, with
    node and device counts of its own. *)
Module RewardModelConfig.
Record t : Set := Build
  { enable_resource_pool : bool; n_gpus_per_node : Z; nnodes : Z }.
End RewardModelConfig.

Record Config : Set := BuildConfig
  { trainer : TrainerConfig.t; reward_model : RewardModelConfig.t }.

(** ** Python containers *)

(** A [dict] with string keys keeps its keys in insertion order:
    [d[k] = v] replaces the value of a key that is present, where it
    stands, and appends a new key at the end. *)
Fixpoint dict_setitem {V : Type} (d : list (string * V)) (k : string) (v : V)
    : list (string * V) :=
  match d with
  | [] => [(k, v)]
  | (k', v') :: d' =>
      if String.eqb k' k then (k, v) :: d'
      else (k', v') :: dict_setitem d' k v
  end.

Fixpoint dict_get {V : Type} (d : list (string * V)) (k : string) : option V :=
  match d with
  | [] => None
  | (k', v') :: d' => if String.eqb k' k then Some v' else dict_get d' k
  end.

(** [l * n] on a list: [n] copies of [l] one after the other, the empty
    list when [n <= 0]. *)
Definition list_mul {A : Type} (l : list A) (n : Z) : list A :=
  mjoin (replicate (Z.to_nat n) l).

(** ** Exceptions and the role table *)

Inductive exn : Set := ValueError (msg : string).

Inductive outcome (A : Type) : Type :=
  | Return (a : A)
  | Raise (e : exn).
Arguments Return {A} a.
Arguments Raise {A} e.

(** A method body: from the role table [self.mapping] before the call to
    the table after it and what the call returned or raised.  A raise
    keeps the writes made before it. *)
Definition Run (A : Type) : Type :=
  gmap Role string → gmap Role string * outcome A.

Definition ret {A : Type} (a : A) : Run A := λ m, (m, Return a).

Definition raise {A : Type} (e : exn) : Run A := λ m, (m, Raise e).

Definition bind {A B : Type} (c : Run A) (k : A → Run B) : Run B :=
  λ m, match c m with
       | (m', Return a) => k a m'
       | (m', Raise e) => (m', Raise e)
       end.

(** [self.mapping[role] = pool_id] *)
Definition mapping_setitem (role : Role) (pool_id : string) : Run unit :=
  λ m, (<[role := pool_id]> m, Return ()).

(** reading [self.mapping] *)
Definition self_mapping : Run (gmap Role string) := λ m, (m, Return m).

Declare Scope run_scope.
Delimit Scope run_scope with run.
Notation "x <- c ;; k" := (bind c (λ x, k))
  (at level 100, c at next level, right associativity) : run_scope.
Notation "c ;; k" := (bind c (λ _, k))
  (at level 100, right associativity) : run_scope.

(** ** The resource pool manager *)

(** Modelled from the spec: the [ResourcePoolManager] class of
    verl.trainer.ppo.ray_trainer is not in src/; the plan it holds is the
    pair of a pool spec and a role mapping, so the constructor call stores
    its two keyword arguments.  The [mapping] field is the role table
    object itself, as it stands when the manager is built. *)
Record ResourcePoolManager : Type := BuildManager
  { resource_pool_spec : list (string * list Z);
    mapping : gmap Role string }.

Definition actor_rollout_ref_pool_id : string := "actor_rollout_ref_pool".
Definition critic_pool_id : string := "critic_pool".

(** The GPU allocation (the [if]/[else] that builds [resource_pool_spec]). *)
Definition split_pool_spec (n_gpus_per_node nnodes : Z)
    : list (string * list Z) :=
  if n_gpus_per_node mod 2 =? 0 then
    let gpus_per_pool := n_gpus_per_node / 2 in
    dict_setitem
      (dict_setitem [] actor_rollout_ref_pool_id (list_mul [gpus_per_pool] nnodes))
      critic_pool_id (list_mul [gpus_per_pool] nnodes)
  else
    let actor_gpus := (n_gpus_per_node + 1) / 2 in
    let critic_gpus := n_gpus_per_node / 2 in
    dict_setitem
      (dict_setitem [] actor_rollout_ref_pool_id (list_mul [actor_gpus] nnodes))
      critic_pool_id (list_mul [critic_gpus] nnodes).

Definition init_resource_pool_mgr (config : Config) : Run ResourcePoolManager :=
  (let n_gpus_per_node := TrainerConfig.n_gpus_per_node (trainer config) in
   let nnodes := TrainerConfig.nnodes (trainer config) in
   let resource_pool_spec := split_pool_spec n_gpus_per_node nnodes in
   mapping_setitem ActorRollout actor_rollout_ref_pool_id ;;
   mapping_setitem Critic critic_pool_id ;;
   resource_pool_spec <-
     (if RewardModelConfig.enable_resource_pool (reward_model config) then
        if RewardModelConfig.n_gpus_per_node (reward_model config) <=? 0 then
          raise (ValueError
            "config.reward_model.n_gpus_per_node must be greater than 0")
        else if RewardModelConfig.nnodes (reward_model config) <=? 0 then
          raise (ValueError
            "config.reward_model.nnodes must be greater than 0")
        else
          let reward_pool :=
            list_mul [RewardModelConfig.n_gpus_per_node (reward_model config)]
                     (RewardModelConfig.nnodes (reward_model config)) in
          ret (dict_setitem resource_pool_spec "reward_pool" reward_pool)
      else ret resource_pool_spec) ;;
   mapping <- self_mapping ;;
   ret (BuildManager resource_pool_spec mapping))%run.

(** ** Configurations *)

Definition config_of (n_gpus_per_node nnodes : Z) (rm : RewardModelConfig.t)
    : Config :=
  BuildConfig (TrainerConfig.Build n_gpus_per_node nnodes) rm.

Definition no_reward_pool : RewardModelConfig.t :=
  RewardModelConfig.Build false 0 0.

Definition reward_pool_of (n_gpus_per_node nnodes : Z) : RewardModelConfig.t :=
  RewardModelConfig.Build true n_gpus_per_node nnodes.

(** The reward model's pool is either not asked for or declared with
    positive counts: the configurations on which neither check raises. *)
Definition reward_pool_valid (rm : RewardModelConfig.t) : Prop :=
  RewardModelConfig.enable_resource_pool rm = true →
  0 < RewardModelConfig.n_gpus_per_node rm ∧ 0 < RewardModelConfig.nnodes rm.

(** The role table once the method has written its two bindings. *)
Definition split_bindings (m : gmap Role string) : gmap Role string :=
  <[Critic := critic_pool_id]> (<[ActorRollout := actor_rollout_ref_pool_id]> m).

(** The pool spec a call returned, or the error it raised. *)
Definition spec_or_error (o : outcome ResourcePoolManager)
    : outcome (list (string * list Z)) :=
  match o with
  | Return mgr => Return (resource_pool_spec mgr)
  | Raise e => Raise e
  end.

(** A manager over the given role table when a pool spec was computed,
    the error otherwise. *)
Definition manager_or_error (o : outcome (list (string * list Z)))
    (mp : gmap Role string) : outcome ResourcePoolManager :=
  match o with
  | Return spec => Return (BuildManager spec mp)
  | Raise e => Raise e
  end.

(** The devices of a pool over all its nodes: the sum of its row. *)
Definition total_devices (row : list Z) : Z := foldr Z.add 0 row.

(** The devices a pool spec asks for, over all its pools. *)
Definition spec_total_devices (spec : list (string * list Z)) : Z :=
  foldr (λ pool acc, total_devices pool.2 + acc) 0 spec.

(** * Properties *)

(** ** Python containers *)

Lemma list_mul_singleton {A : Type} (x : A) (n : Z) :
  list_mul [x] n = replicate (Z.to_nat n) x.
Proof.
  unfold list_mul. induction (Z.to_nat n) as [|k IH]; simpl; [done|].
  by rewrite IH.
Qed.

Lemma dict_get_setitem_eq {V : Type} (d : list (string * V)) k v :
  dict_get (dict_setitem d k v) k = Some v.
Proof.
  induction d as [|[k' v'] d IH]; simpl.
  - by rewrite String.eqb_refl.
  - destruct (String.eqb k' k) eqn:E; simpl.
    + by rewrite String.eqb_refl.
    + by rewrite E.
Qed.

Lemma dict_get_setitem_ne {V : Type} (d : list (string * V)) k k' v :
  k ≠ k' → dict_get (dict_setitem d k v) k' = dict_get d k'.
Proof.
  intros Hne. induction d as [|[k0 v0] d IH]; simpl.
  - destruct (String.eqb k k') eqn:E; [|done].
    by apply String.eqb_eq in E.
  - destruct (String.eqb k0 k) eqn:E; simpl.
    + apply String.eqb_eq in E. subst k0.
      destruct (String.eqb k k') eqn:E'; [|done].
      by apply String.eqb_eq in E'.
    + by rewrite IH.
Qed.

(** ** The GPU allocation *)

Lemma split_pool_spec_even n nnodes :
  n mod 2 = 0 →
  split_pool_spec n nnodes
  = [(actor_rollout_ref_pool_id, replicate (Z.to_nat nnodes) (n / 2));
     (critic_pool_id, replicate (Z.to_nat nnodes) (n / 2))].
Proof.
  intros Hn. unfold split_pool_spec.
  apply Z.eqb_eq in Hn. rewrite Hn. by rewrite list_mul_singleton.
Qed.

Lemma split_pool_spec_odd n nnodes :
  n mod 2 ≠ 0 →
  split_pool_spec n nnodes
  = [(actor_rollout_ref_pool_id, replicate (Z.to_nat nnodes) ((n + 1) / 2));
     (critic_pool_id, replicate (Z.to_nat nnodes) (n / 2))].
Proof.
  intros Hn. unfold split_pool_spec.
  apply Z.eqb_neq in Hn. rewrite Hn. by rewrite !list_mul_singleton.
Qed.

(** Whatever the parity, the two rows are uniform and their counts are
    the two halves of [n], the larger one first. *)
Lemma split_pool_spec_halves n nnodes :
  ∃ actor_gpus critic_gpus,
    split_pool_spec n nnodes
    = [(actor_rollout_ref_pool_id, replicate (Z.to_nat nnodes) actor_gpus);
       (critic_pool_id, replicate (Z.to_nat nnodes) critic_gpus)]
    ∧ actor_gpus + critic_gpus = n
    ∧ actor_gpus - critic_gpus = n mod 2
    ∧ critic_gpus = n / 2.
Proof.
  destruct (decide (n mod 2 = 0)) as [He|Ho].
  - exists (n / 2), (n / 2). split; [by apply split_pool_spec_even|].
    Z.div_mod_to_equations; lia.
  - exists ((n + 1) / 2), (n / 2). split; [by apply split_pool_spec_odd|].
    Z.div_mod_to_equations; lia.
Qed.

(** ** The three ways through the method *)

Lemma init_without_reward_pool n nnodes rn rnn m :
  init_resource_pool_mgr
    (config_of n nnodes (RewardModelConfig.Build false rn rnn)) m
  = (split_bindings m,
     Return (BuildManager (split_pool_spec n nnodes) (split_bindings m))).
Proof. reflexivity. Qed.

Lemma init_with_reward_pool n nnodes rn rnn m :
  0 < rn → 0 < rnn →
  init_resource_pool_mgr (config_of n nnodes (reward_pool_of rn rnn)) m
  = (split_bindings m,
     Return (BuildManager
       (dict_setitem (split_pool_spec n nnodes) "reward_pool"
                     (replicate (Z.to_nat rnn) rn))
       (split_bindings m))).
Proof.
  intros Hn Hnn. unfold init_resource_pool_mgr, bind; simpl.
  destruct (Z.leb_spec rn 0); [lia|]. destruct (Z.leb_spec rnn 0); [lia|].
  simpl. by rewrite list_mul_singleton.
Qed.

Lemma init_reward_gpus_rejected n nnodes rn rnn m :
  rn ≤ 0 →
  init_resource_pool_mgr (config_of n nnodes (reward_pool_of rn rnn)) m
  = (split_bindings m,
     Raise (ValueError
       "config.reward_model.n_gpus_per_node must be greater than 0")).
Proof.
  intros Hn. unfold init_resource_pool_mgr, bind; simpl.
  by destruct (Z.leb_spec rn 0); [|lia].
Qed.

Lemma init_reward_nnodes_rejected n nnodes rn rnn m :
  0 < rn → rnn ≤ 0 →
  init_resource_pool_mgr (config_of n nnodes (reward_pool_of rn rnn)) m
  = (split_bindings m,
     Raise (ValueError "config.reward_model.nnodes must be greater than 0")).
Proof.
  intros Hn Hnn. unfold init_resource_pool_mgr, bind; simpl.
  destruct (Z.leb_spec rn 0); [lia|]. by destruct (Z.leb_spec rnn 0); [|lia].
Qed.

(** On a valid configuration the call returns a manager; its spec reads
    the two primary rows as the allocation wrote them, with or without
    the reward model's pool. *)
Lemma init_returns_primary_rows n nnodes rm m :
  reward_pool_valid rm →
  ∃ mgr,
    init_resource_pool_mgr (config_of n nnodes rm) m
    = (split_bindings m, Return mgr)
    ∧ mapping mgr = split_bindings m
    ∧ dict_get (resource_pool_spec mgr) actor_rollout_ref_pool_id
      = dict_get (split_pool_spec n nnodes) actor_rollout_ref_pool_id
    ∧ dict_get (resource_pool_spec mgr) critic_pool_id
      = dict_get (split_pool_spec n nnodes) critic_pool_id.
Proof.
  destruct rm as [[] rn rnn]; intros Hv.
  - destruct (Hv eq_refl) as [Hn Hnn].
    eexists. split; [by apply init_with_reward_pool|]. simpl.
    split; [done|]. by rewrite !dict_get_setitem_ne.
  - eexists. split; [by apply init_without_reward_pool|]. done.
Qed.

(** Both facts together: the call returns, and its two primary rows are
    uniform with the two halves of [n] as their counts. *)
Lemma init_returns_halves n nnodes rm m :
  reward_pool_valid rm →
  ∃ mgr actor_gpus critic_gpus,
    init_resource_pool_mgr (config_of n nnodes rm) m
    = (split_bindings m, Return mgr)
    ∧ dict_get (resource_pool_spec mgr) actor_rollout_ref_pool_id
      = Some (replicate (Z.to_nat nnodes) actor_gpus)
    ∧ dict_get (resource_pool_spec mgr) critic_pool_id
      = Some (replicate (Z.to_nat nnodes) critic_gpus)
    ∧ actor_gpus + critic_gpus = n
    ∧ actor_gpus - critic_gpus = n mod 2
    ∧ critic_gpus = n / 2.
Proof.
  intros Hv.
  destruct (init_returns_primary_rows n nnodes rm m Hv)
    as (mgr & Hrun & _ & Hactor & Hcritic).
  destruct (split_pool_spec_halves n nnodes) as (a & c & Hspec & Hsum).
  exists mgr, a, c. rewrite Hactor, Hcritic, Hspec. done.
Qed.

Lemma no_reward_pool_valid : reward_pool_valid no_reward_pool.
Proof. intros H. discriminate H. Qed.

Lemma reward_pool_of_valid rn rnn :
  0 < rn → 0 < rnn → reward_pool_valid (reward_pool_of rn rnn).
Proof. by intros ?? _. Qed.

(** ** The role table across calls *)

Lemma split_bindings_idemp (m : gmap Role string) :
  split_bindings (split_bindings m) = split_bindings m.
Proof.
  unfold split_bindings. apply map_eq. intros r.
  destruct r; by simplify_map_eq.
Qed.

(** The pool spec, or the error, is fixed by the configuration; the role
    table only receives the two bindings and is handed to the manager. *)
Lemma init_factors (config : Config) :
  ∃ o, ∀ m,
    init_resource_pool_mgr config m
    = (split_bindings m, manager_or_error o (split_bindings m)).
Proof.
  destruct config as [[n nnodes] [[] rn rnn]].
  - destruct (Z.leb_spec rn 0) as [Hn|Hn].
    + eexists (Raise _). intros m.
      by apply (init_reward_gpus_rejected n nnodes rn rnn m).
    + destruct (Z.leb_spec rnn 0) as [Hnn|Hnn].
      * eexists (Raise _). intros m.
        by apply (init_reward_nnodes_rejected n nnodes rn rnn m).
      * eexists (Return _). intros m.
        by apply (init_with_reward_pool n nnodes rn rnn m).
  - eexists (Return _). intros m.
    apply (init_without_reward_pool n nnodes rn rnn m).
Qed.

(** The call writes two bindings and no other: every role but
    ActorRollout and Critic stays bound, or unbound, as it was. *)
Lemma init_keeps_other_roles (config : Config) (m : gmap Role string)
    (role : Role) :
  role ≠ ActorRollout → role ≠ Critic →
  (init_resource_pool_mgr config m).1 !! role = m !! role.
Proof.
  intros Ha Hc. destruct (init_factors config) as [o Ho]. rewrite Ho.
  unfold split_bindings. simpl. by simplify_map_eq.
Qed.

(** ** The split of the primary cluster *)

(** C1. On a cluster of at least one node with an odd number of GPUs per
    node, the call returns a manager whose actor_rollout_ref_pool has
    ceil(n/2) devices and whose critic_pool has floor(n/2) devices on
    every one of the [nnodes] nodes, and the two counts add up to [n].
    The ceiling is the least integer whose double reaches [n], the floor
    the greatest integer whose double does not pass it. *)
Theorem split_odd_ceil_floor (n nnodes : Z) (rm : RewardModelConfig.t)
    (m : gmap Role string) :
  1 ≤ nnodes → n mod 2 = 1 → reward_pool_valid rm →
  ∃ mgr actor_gpus critic_gpus,
    (init_resource_pool_mgr (config_of n nnodes rm) m).2 = Return mgr
    ∧ 2 * (actor_gpus - 1) < n ≤ 2 * actor_gpus
    ∧ 2 * critic_gpus ≤ n < 2 * (critic_gpus + 1)
    ∧ actor_gpus + critic_gpus = n
    ∧ dict_get (resource_pool_spec mgr) actor_rollout_ref_pool_id
      = Some (replicate (Z.to_nat nnodes) actor_gpus)
    ∧ dict_get (resource_pool_spec mgr) critic_pool_id
      = Some (replicate (Z.to_nat nnodes) critic_gpus).
Proof.
  intros _ Hodd Hv.
  destruct (init_returns_halves n nnodes rm m Hv)
    as (mgr & a & c & Hrun & Hactor & Hcritic & Hsum & Hdiff & Hc).
  exists mgr, a, c. rewrite Hrun. simpl.
  repeat split; try done; Z.div_mod_to_equations; lia.
Qed.

(** Scenario B, from C1: one node with three GPUs gives
    actor_rollout_ref_pool = [2] and critic_pool = [1]. *)
Lemma split_odd_scenario_B :
  ∃ mgr,
    (init_resource_pool_mgr (config_of 3 1 no_reward_pool) ∅).2 = Return mgr
    ∧ dict_get (resource_pool_spec mgr) actor_rollout_ref_pool_id = Some [2]
    ∧ dict_get (resource_pool_spec mgr) critic_pool_id = Some [1].
Proof.
  destruct (split_odd_ceil_floor 3 1 no_reward_pool ∅)
    as (mgr & a & c & Hrun & Ha & Hc & _ & Hactor & Hcritic).
  - lia.
  - reflexivity.
  - exact no_reward_pool_valid.
  - assert (a = 2) as -> by lia. assert (c = 1) as -> by lia.
    exists mgr. auto.
Defined.

(** C2. On a cluster of at least one node with an even number of GPUs per
    node, at least two, the call returns a manager whose two pools both
    have exactly half of the GPUs of a node on every one of the [nnodes]
    nodes. *)
Theorem split_even_halves (n nnodes : Z) (rm : RewardModelConfig.t)
    (m : gmap Role string) :
  1 ≤ nnodes → 2 ≤ n → n mod 2 = 0 → reward_pool_valid rm →
  ∃ mgr gpus_per_pool,
    (init_resource_pool_mgr (config_of n nnodes rm) m).2 = Return mgr
    ∧ 2 * gpus_per_pool = n
    ∧ dict_get (resource_pool_spec mgr) actor_rollout_ref_pool_id
      = Some (replicate (Z.to_nat nnodes) gpus_per_pool)
    ∧ dict_get (resource_pool_spec mgr) critic_pool_id
      = Some (replicate (Z.to_nat nnodes) gpus_per_pool).
Proof.
  intros _ _ Heven Hv.
  destruct (init_returns_halves n nnodes rm m Hv)
    as (mgr & a & c & Hrun & Hactor & Hcritic & Hsum & Hdiff & Hc).
  assert (a = c) as -> by lia.
  exists mgr, c. rewrite Hrun. simpl. repeat split; try done; lia.
Qed.

(** Scenario A, from C2: two nodes with four GPUs each give
    actor_rollout_ref_pool = [2,2] and critic_pool = [2,2]. *)
Lemma split_even_scenario_A :
  ∃ mgr,
    (init_resource_pool_mgr (config_of 4 2 no_reward_pool) ∅).2 = Return mgr
    ∧ dict_get (resource_pool_spec mgr) actor_rollout_ref_pool_id
      = Some [2; 2]
    ∧ dict_get (resource_pool_spec mgr) critic_pool_id = Some [2; 2].
Proof.
  destruct (split_even_halves 4 2 no_reward_pool ∅)
    as (mgr & g & Hrun & Hg & Hactor & Hcritic).
  - lia.
  - lia.
  - reflexivity.
  - exact no_reward_pool_valid.
  - assert (g = 2) as -> by lia. exists mgr. auto.
Defined.

(** C3. Whenever the call produces a pool spec, the two primary pools have
    one count per node, and on every node index the count of
    actor_rollout_ref_pool plus the count of critic_pool does not exceed
    the GPUs of a node: it is equal to it.  The reward model's pool adds
    nothing to these rows: they are the rows of the same cluster with the
    reward pool switched off, and an enabled reward pool is a row of its
    own under its own key, as long as its own node count. *)
Theorem primary_pools_within_budget (n nnodes : Z) (rm : RewardModelConfig.t)
    (m : gmap Role string) :
  reward_pool_valid rm →
  ∃ mgr mgr0 actor_row critic_row,
    (init_resource_pool_mgr (config_of n nnodes rm) m).2 = Return mgr
    ∧ dict_get (resource_pool_spec mgr) actor_rollout_ref_pool_id
      = Some actor_row
    ∧ dict_get (resource_pool_spec mgr) critic_pool_id = Some critic_row
    ∧ length actor_row = Z.to_nat nnodes
    ∧ length critic_row = Z.to_nat nnodes
    ∧ (∀ i : nat, (i < Z.to_nat nnodes)%nat →
         ∃ a c, actor_row !! i = Some a ∧ critic_row !! i = Some c
                ∧ a + c ≤ n ∧ a + c = n)
    ∧ (init_resource_pool_mgr (config_of n nnodes no_reward_pool) m).2
      = Return mgr0
    ∧ dict_get (resource_pool_spec mgr0) actor_rollout_ref_pool_id
      = Some actor_row
    ∧ dict_get (resource_pool_spec mgr0) critic_pool_id = Some critic_row
    ∧ (RewardModelConfig.enable_resource_pool rm = true →
       dict_get (resource_pool_spec mgr) "reward_pool"
       = Some (replicate (Z.to_nat (RewardModelConfig.nnodes rm))
                         (RewardModelConfig.n_gpus_per_node rm))).
Proof.
  intros Hv.
  destruct (init_returns_primary_rows n nnodes rm m Hv)
    as (mgr & Hrun & _ & Hactor & Hcritic).
  destruct (split_pool_spec_halves n nnodes) as (a & c & Hspec & Hsum & _).
  exists mgr, (BuildManager (split_pool_spec n nnodes) (split_bindings m)).
  exists (replicate (Z.to_nat nnodes) a), (replicate (Z.to_nat nnodes) c).
  rewrite Hrun, Hactor, Hcritic, Hspec. simpl.
  rewrite !length_replicate.
  repeat split; try done.
  - intros i Hi. exists a, c. rewrite !lookup_replicate_2 by done.
    repeat split; try done. lia.
  - by rewrite <- Hspec.
  - intros Hen. destruct rm as [en rn rnn]. simpl in *. subst en.
    destruct (Hv eq_refl) as [Hn Hnn].
    pose proof (init_with_reward_pool n nnodes rn rnn m Hn Hnn) as Hrw.
    unfold reward_pool_of in Hrw. rewrite Hrw in Hrun.
    injection Hrun as <-. simpl. apply dict_get_setitem_eq.
Qed.

(** Scenario C, from C3: two nodes with two GPUs each and a reward pool of
    one node with one GPU; the primary rows are [1,1] and [1,1] and add up
    to 2 on both nodes. *)
Lemma primary_pools_scenario_C :
  ∃ mgr mgr0 actor_row critic_row,
    (init_resource_pool_mgr (config_of 2 2 (reward_pool_of 1 1)) ∅).2
    = Return mgr
    ∧ dict_get (resource_pool_spec mgr) actor_rollout_ref_pool_id
      = Some actor_row
    ∧ dict_get (resource_pool_spec mgr) critic_pool_id = Some critic_row
    ∧ length actor_row = 2%nat
    ∧ length critic_row = 2%nat
    ∧ (∀ i : nat, (i < 2)%nat →
         ∃ a c, actor_row !! i = Some a ∧ critic_row !! i = Some c
                ∧ a + c ≤ 2 ∧ a + c = 2)
    ∧ (init_resource_pool_mgr (config_of 2 2 no_reward_pool) ∅).2
      = Return mgr0
    ∧ dict_get (resource_pool_spec mgr0) actor_rollout_ref_pool_id
      = Some actor_row
    ∧ dict_get (resource_pool_spec mgr0) critic_pool_id = Some critic_row
    ∧ (true = true → dict_get (resource_pool_spec mgr) "reward_pool" = Some [1]).
Proof.
  apply (primary_pools_within_budget 2 2 (reward_pool_of 1 1) ∅).
  apply reward_pool_of_valid; lia.
Defined.

(** C10. On a cluster of at least one node with at least one GPU per node,
    the count of actor_rollout_ref_pool minus the count of critic_pool is
    [n mod 2] on every node: the actor pool never has fewer devices than
    the critic pool and has at most one more. *)
Theorem actor_minus_critic_is_parity (n nnodes : Z) (rm : RewardModelConfig.t)
    (m : gmap Role string) :
  1 ≤ n → 1 ≤ nnodes → reward_pool_valid rm →
  ∃ mgr actor_gpus critic_gpus,
    (init_resource_pool_mgr (config_of n nnodes rm) m).2 = Return mgr
    ∧ dict_get (resource_pool_spec mgr) actor_rollout_ref_pool_id
      = Some (replicate (Z.to_nat nnodes) actor_gpus)
    ∧ dict_get (resource_pool_spec mgr) critic_pool_id
      = Some (replicate (Z.to_nat nnodes) critic_gpus)
    ∧ actor_gpus - critic_gpus = n mod 2
    ∧ critic_gpus ≤ actor_gpus ≤ critic_gpus + 1.
Proof.
  intros _ _ Hv.
  destruct (init_returns_halves n nnodes rm m Hv)
    as (mgr & a & c & Hrun & Hactor & Hcritic & Hsum & Hdiff & Hc).
  exists mgr, a, c. rewrite Hrun. simpl.
  repeat split; try done; Z.div_mod_to_equations; lia.
Qed.

(** C10 on two nodes with five GPUs each: the actor pool has one device
    more than the critic pool on both nodes. *)
Lemma actor_minus_critic_five_gpus :
  ∃ mgr actor_gpus critic_gpus,
    (init_resource_pool_mgr (config_of 5 2 no_reward_pool) ∅).2 = Return mgr
    ∧ dict_get (resource_pool_spec mgr) actor_rollout_ref_pool_id
      = Some [actor_gpus; actor_gpus]
    ∧ dict_get (resource_pool_spec mgr) critic_pool_id
      = Some [critic_gpus; critic_gpus]
    ∧ actor_gpus - critic_gpus = 1
    ∧ critic_gpus ≤ actor_gpus ≤ critic_gpus + 1.
Proof.
  apply (actor_minus_critic_is_parity 5 2 no_reward_pool ∅).
  - lia.
  - lia.
  - exact no_reward_pool_valid.
Defined.

(** ** Degenerate shapes *)

(** C4 does not hold: asked to split a node with a single GPU, the call
    raises nothing and returns a spec whose critic_pool row is [0]. *)
Lemma split_one_gpu_returns_zero_row :
  (init_resource_pool_mgr (config_of 1 1 no_reward_pool) ∅).2
  = Return (BuildManager
      [("actor_rollout_ref_pool", [1]); ("critic_pool", [0])]
      (split_bindings ∅)).
Proof. reflexivity. Qed.

(** C4, amended.  With fewer than two GPUs per node the call does not
    fail: it returns a manager whose critic_pool has floor(n/2) devices on
    every node, which is zero or less, and with exactly one GPU per node
    the rows are [1] and [0] on every node. *)
Theorem split_below_two_gpus_returns (n nnodes : Z) (rm : RewardModelConfig.t)
    (m : gmap Role string) :
  n < 2 → reward_pool_valid rm →
  ∃ mgr actor_gpus critic_gpus,
    (init_resource_pool_mgr (config_of n nnodes rm) m).2 = Return mgr
    ∧ dict_get (resource_pool_spec mgr) actor_rollout_ref_pool_id
      = Some (replicate (Z.to_nat nnodes) actor_gpus)
    ∧ dict_get (resource_pool_spec mgr) critic_pool_id
      = Some (replicate (Z.to_nat nnodes) critic_gpus)
    ∧ 2 * critic_gpus ≤ n < 2 * (critic_gpus + 1)
    ∧ critic_gpus ≤ 0
    ∧ (n = 1 → actor_gpus = 1 ∧ critic_gpus = 0).
Proof.
  intros Hlt Hv.
  destruct (init_returns_halves n nnodes rm m Hv)
    as (mgr & a & c & Hrun & Hactor & Hcritic & Hsum & Hdiff & Hc).
  exists mgr, a, c. rewrite Hrun. simpl.
  repeat split; try done; Z.div_mod_to_equations; lia.
Qed.

(** The amended C4 on three nodes with one GPU each: the rows are
    [1,1,1] and [0,0,0]. *)
Lemma split_one_gpu_three_nodes :
  ∃ mgr,
    (init_resource_pool_mgr (config_of 1 3 no_reward_pool) ∅).2 = Return mgr
    ∧ dict_get (resource_pool_spec mgr) actor_rollout_ref_pool_id
      = Some [1; 1; 1]
    ∧ dict_get (resource_pool_spec mgr) critic_pool_id = Some [0; 0; 0].
Proof.
  destruct (split_below_two_gpus_returns 1 3 no_reward_pool ∅)
    as (mgr & a & c & Hrun & Hactor & Hcritic & _ & _ & Hone).
  - lia.
  - exact no_reward_pool_valid.
  - destruct (Hone eq_refl) as [-> ->]. exists mgr. auto.
Defined.

(** ** The reward model's pool *)

(** C6. An enabled reward pool declared with a GPU count or a node count
    that is not positive makes the call raise a [ValueError] whose message
    names the configuration field at fault: the GPU count when it is not
    positive, and otherwise the node count. *)
Theorem invalid_reward_pool_raises (n nnodes rn rnn : Z)
    (m : gmap Role string) :
  rn ≤ 0 ∨ rnn ≤ 0 →
  ∃ msg,
    (init_resource_pool_mgr (config_of n nnodes (reward_pool_of rn rnn)) m).2
    = Raise (ValueError msg)
    ∧ (rn ≤ 0 →
       msg = "config.reward_model.n_gpus_per_node must be greater than 0")
    ∧ (0 < rn → msg = "config.reward_model.nnodes must be greater than 0").
Proof.
  intros Hbad. destruct (Z.leb_spec rn 0) as [Hn|Hn].
  - eexists. rewrite init_reward_gpus_rejected by done.
    split; [done|]. split; [done|lia].
  - eexists. rewrite init_reward_nnodes_rejected by lia.
    split; [done|]. split; [lia|done].
Qed.

(** Scenario E, from C6: a reward pool enabled with zero GPUs per node is
    rejected, and the message names [n_gpus_per_node]. *)
Lemma invalid_reward_pool_scenario_E :
  (init_resource_pool_mgr (config_of 2 2 (reward_pool_of 0 1)) ∅).2
  = Raise (ValueError
      "config.reward_model.n_gpus_per_node must be greater than 0").
Proof.
  destruct (invalid_reward_pool_raises 2 2 0 1 ∅) as (msg & Hrun & Hmsg & _).
  - left. lia.
  - rewrite Hrun, Hmsg; [reflexivity|lia].
Defined.

(** C7. An enabled reward pool with positive counts is the third pool of
    the returned spec, [rn] devices on each of its own [rnn] nodes.  It is
    not taken out of the primary cluster: the two pools before it are the
    rows the same cluster gets with the reward pool switched off, and
    their counts still add up to all the GPUs of a node. *)
Theorem reward_pool_is_third_pool (n nnodes rn rnn : Z)
    (m : gmap Role string) :
  0 < rn → 0 < rnn →
  ∃ mgr mgr0 actor_gpus critic_gpus,
    (init_resource_pool_mgr (config_of n nnodes (reward_pool_of rn rnn)) m).2
    = Return mgr
    ∧ resource_pool_spec mgr
      = [(actor_rollout_ref_pool_id, replicate (Z.to_nat nnodes) actor_gpus);
         (critic_pool_id, replicate (Z.to_nat nnodes) critic_gpus);
         ("reward_pool", replicate (Z.to_nat rnn) rn)]
    ∧ (init_resource_pool_mgr (config_of n nnodes no_reward_pool) m).2
      = Return mgr0
    ∧ resource_pool_spec mgr0
      = [(actor_rollout_ref_pool_id, replicate (Z.to_nat nnodes) actor_gpus);
         (critic_pool_id, replicate (Z.to_nat nnodes) critic_gpus)]
    ∧ actor_gpus + critic_gpus = n.
Proof.
  intros Hn Hnn.
  destruct (split_pool_spec_halves n nnodes) as (a & c & Hspec & Hsum & _).
  exists (BuildManager
            (dict_setitem (split_pool_spec n nnodes) "reward_pool"
                          (replicate (Z.to_nat rnn) rn))
            (split_bindings m)),
         (BuildManager (split_pool_spec n nnodes) (split_bindings m)), a, c.
  rewrite init_with_reward_pool by done. simpl.
  rewrite Hspec. done.
Qed.

(** Scenario C, from C7: two nodes with two GPUs each and a reward pool of
    one node with one GPU give the three pools [1,1], [1,1] and [1]. *)
Lemma reward_pool_scenario_C :
  ∃ mgr,
    (init_resource_pool_mgr (config_of 2 2 (reward_pool_of 1 1)) ∅).2
    = Return mgr
    ∧ resource_pool_spec mgr
      = [("actor_rollout_ref_pool", [1; 1]); ("critic_pool", [1; 1]);
         ("reward_pool", [1])].
Proof.
  destruct (reward_pool_is_third_pool 2 2 1 1 ∅)
    as (mgr & mgr0 & a & c & Hrun & Hspec & Hrun0 & Hspec0 & Hsum).
  - lia.
  - lia.
  - exists mgr. split; [exact Hrun|].
    unfold no_reward_pool in Hrun0.
    rewrite init_without_reward_pool in Hrun0.
    unfold snd in Hrun0. assert (Hmgr0 := f_equal spec_or_error Hrun0).
    simpl in Hmgr0. rewrite Hspec0 in Hmgr0. vm_compute in Hmgr0.
    assert (a = 1) as -> by congruence. assert (c = 1) as -> by congruence.
    exact Hspec.
Defined.

(** ** The role table *)

(** C5 does not hold: when the check of the reward pool raises, the role
    table, empty before the call, already holds the two bindings. *)
Lemma failed_construction_keeps_bindings :
  (init_resource_pool_mgr (config_of 2 2 (reward_pool_of 0 1)) ∅).2
  = Raise (ValueError
      "config.reward_model.n_gpus_per_node must be greater than 0")
  ∧ (init_resource_pool_mgr (config_of 2 2 (reward_pool_of 0 1)) ∅).1
      !! ActorRollout = Some "actor_rollout_ref_pool"
  ∧ (init_resource_pool_mgr (config_of 2 2 (reward_pool_of 0 1)) ∅).1
      !! Critic = Some "critic_pool"
  ∧ (∅ : gmap Role string) !! ActorRollout = None
  ∧ (∅ : gmap Role string) !! Critic = None.
Proof. repeat split; reflexivity. Qed.

(** C5, amended.  When the check of the reward pool fails, the call raises
    the error and hands back no manager and no pool spec, but the role
    table is not as it was: ActorRollout and Critic are bound to their
    pools, as after a call that succeeded, and every other role is bound
    as before. *)
Theorem failed_validation_keeps_role_writes (n nnodes rn rnn : Z)
    (m : gmap Role string) :
  rn ≤ 0 ∨ rnn ≤ 0 →
  ∃ e,
    init_resource_pool_mgr (config_of n nnodes (reward_pool_of rn rnn)) m
    = (<[Critic := "critic_pool"]>
         (<[ActorRollout := "actor_rollout_ref_pool"]> m),
       Raise e)
    ∧ (init_resource_pool_mgr (config_of n nnodes (reward_pool_of rn rnn)) m).1
        !! ActorRollout = Some "actor_rollout_ref_pool"
    ∧ (init_resource_pool_mgr (config_of n nnodes (reward_pool_of rn rnn)) m).1
        !! Critic = Some "critic_pool"
    ∧ ∀ role, role ≠ ActorRollout → role ≠ Critic →
        (init_resource_pool_mgr
           (config_of n nnodes (reward_pool_of rn rnn)) m).1 !! role
        = m !! role.
Proof.
  intros Hbad.
  assert (∃ e, init_resource_pool_mgr
                 (config_of n nnodes (reward_pool_of rn rnn)) m
               = (split_bindings m, Raise e)) as [e He].
  { destruct (Z.leb_spec rn 0) as [Hn|Hn].
    - eexists. by apply init_reward_gpus_rejected.
    - eexists. apply init_reward_nnodes_rejected; lia. }
  exists e. rewrite He. unfold split_bindings. simpl.
  repeat split; [by simplify_map_eq..|].
  intros role Ha Hc. by simplify_map_eq.
Qed.

(** The amended C5 on a role table that binds the reward model: a reward
    pool of zero nodes is rejected and the table has the three bindings. *)
Lemma failed_validation_zero_nodes :
  ∃ e,
    init_resource_pool_mgr (config_of 4 1 (reward_pool_of 1 0))
      {[RewardModel := "reward_pool"]}
    = (<[Critic := "critic_pool"]>
         (<[ActorRollout := "actor_rollout_ref_pool"]>
            {[RewardModel := "reward_pool"]}),
       Raise e).
Proof.
  destruct (failed_validation_keeps_role_writes 4 1 1 0
              {[RewardModel := "reward_pool"]}) as (e & Hrun & _).
  - right. lia.
  - exists e. exact Hrun.
Defined.

(** C8, on the code.  Four GPUs on each of two nodes, no reward pool, an
    empty role table: the call binds ActorRollout to
    actor_rollout_ref_pool and Critic to critic_pool, and these are all
    the bindings of the table and of the manager; the Reference role is
    bound to no pool. *)
Theorem reference_role_not_bound :
  (init_resource_pool_mgr (config_of 4 2 no_reward_pool) ∅).1
  = {[ActorRollout := "actor_rollout_ref_pool"; Critic := "critic_pool"]}
  ∧ (init_resource_pool_mgr (config_of 4 2 no_reward_pool) ∅).1
      !! ActorRollout = Some "actor_rollout_ref_pool"
  ∧ (init_resource_pool_mgr (config_of 4 2 no_reward_pool) ∅).1
      !! Critic = Some "critic_pool"
  ∧ (init_resource_pool_mgr (config_of 4 2 no_reward_pool) ∅).1
      !! Reference = None
  ∧ spec_or_error (init_resource_pool_mgr (config_of 4 2 no_reward_pool) ∅).2
    = Return [("actor_rollout_ref_pool", [2; 2]); ("critic_pool", [2; 2])]
  ∧ ∃ mgr,
      (init_resource_pool_mgr (config_of 4 2 no_reward_pool) ∅).2 = Return mgr
      ∧ mapping mgr !! Reference = None.
Proof.
  unfold no_reward_pool. rewrite init_without_reward_pool.
  unfold split_bindings. simpl.
  split; [apply map_eq; intros r; destruct r; by simplify_map_eq|].
  do 4 (split; [reflexivity|]).
  eexists. split; reflexivity.
Qed.

(** ** Repeated calls *)

(** C9. Calling the method again on the same runner with the same
    configuration gives the same result as the first call, the same
    manager (pool spec and role mapping) or the same error, and leaves the
    role table as the first call left it.  The pool spec, or the error,
    does not depend on the role table the runner starts from. *)
Theorem init_idempotent_deterministic (config : Config)
    (m m' : gmap Role string) :
  init_resource_pool_mgr config (init_resource_pool_mgr config m).1
  = init_resource_pool_mgr config m
  ∧ spec_or_error (init_resource_pool_mgr config m).2
    = spec_or_error (init_resource_pool_mgr config m').2.
Proof.
  destruct (init_factors config) as [o Ho]. rewrite !Ho. simpl.
  rewrite split_bindings_idemp. split; [done|]. by destruct o.
Qed.

(** * Further properties of the placement *)

Lemma total_devices_replicate (k : nat) (x : Z) :
  total_devices (replicate k x) = Z.of_nat k * x.
Proof. induction k as [|k IH]; simpl in *; lia. Qed.

(** ** When the call fails *)

(** X1. The call raises exactly when the reward pool is enabled and one of its
    two counts is not positive.  No other configuration makes it fail: not
    a cluster with no GPU or no node, and not reward counts that are out
    of range while the reward pool is switched off. *)
Theorem init_raises_iff_reward_pool_invalid (config : Config)
    (m : gmap Role string) :
  (∃ e, (init_resource_pool_mgr config m).2 = Raise e)
  ↔ RewardModelConfig.enable_resource_pool (reward_model config) = true
    ∧ (RewardModelConfig.n_gpus_per_node (reward_model config) ≤ 0
       ∨ RewardModelConfig.nnodes (reward_model config) ≤ 0).
Proof.
  destruct config as [[n nnodes] [en rn rnn]]. simpl.
  change (BuildConfig (TrainerConfig.Build n nnodes)
            (RewardModelConfig.Build en rn rnn))
    with (config_of n nnodes (RewardModelConfig.Build en rn rnn)).
  split.
  - intros [e He]. destruct en.
    + split; [done|].
      destruct (decide (rn ≤ 0)) as [|Hn]; [by left|].
      destruct (decide (rnn ≤ 0)) as [|Hnn]; [by right|].
      pose proof (init_with_reward_pool n nnodes rn rnn m) as Hrun.
      unfold reward_pool_of in Hrun. rewrite Hrun in He by lia. done.
    + by rewrite init_without_reward_pool in He.
  - intros [-> Hbad].
    destruct (decide (rn ≤ 0)) as [Hn|Hn].
    + eexists. pose proof (init_reward_gpus_rejected n nnodes rn rnn m Hn) as Hrun.
      unfold reward_pool_of in Hrun. by rewrite Hrun.
    + eexists.
      pose proof (init_reward_nnodes_rejected n nnodes rn rnn m) as Hrun.
      unfold reward_pool_of in Hrun. rewrite Hrun by lia. done.
Qed.

(** ** Device totals *)

(** X2. On a cluster with a node count that is not negative, the two primary
    pools together hold every GPU of the cluster: their totals over all
    nodes add up to [n * nnodes]. *)
Theorem primary_pools_total_devices (n nnodes : Z) (rm : RewardModelConfig.t)
    (m : gmap Role string) :
  0 ≤ nnodes → reward_pool_valid rm →
  ∃ mgr actor_row critic_row,
    (init_resource_pool_mgr (config_of n nnodes rm) m).2 = Return mgr
    ∧ dict_get (resource_pool_spec mgr) actor_rollout_ref_pool_id
      = Some actor_row
    ∧ dict_get (resource_pool_spec mgr) critic_pool_id = Some critic_row
    ∧ total_devices actor_row + total_devices critic_row = n * nnodes.
Proof.
  intros Hnn Hv.
  destruct (init_returns_halves n nnodes rm m Hv)
    as (mgr & a & c & Hrun & Hactor & Hcritic & Hsum & _).
  exists mgr, (replicate (Z.to_nat nnodes) a), (replicate (Z.to_nat nnodes) c).
  rewrite Hrun. simpl. repeat split; try done.
  rewrite !total_devices_replicate, Z2Nat.id by done. rewrite <- Hsum. ring.
Qed.

(** Two nodes with three GPUs each: the primary pools hold six GPUs. *)
Lemma primary_pools_total_six :
  ∃ mgr actor_row critic_row,
    (init_resource_pool_mgr (config_of 3 2 no_reward_pool) ∅).2 = Return mgr
    ∧ dict_get (resource_pool_spec mgr) actor_rollout_ref_pool_id
      = Some actor_row
    ∧ dict_get (resource_pool_spec mgr) critic_pool_id = Some critic_row
    ∧ total_devices actor_row + total_devices critic_row = 6.
Proof.
  apply (primary_pools_total_devices 3 2 no_reward_pool ∅).
  - lia.
  - exact no_reward_pool_valid.
Defined.

(** X3. The whole spec asks for the GPUs of the primary cluster and, when the
    reward pool is enabled, for the reward model's own [rn * rnn] GPUs on
    top of them; nothing else. *)
Theorem plan_total_devices (n nnodes : Z) (rm : RewardModelConfig.t)
    (m : gmap Role string) :
  0 ≤ nnodes → reward_pool_valid rm →
  ∃ mgr,
    (init_resource_pool_mgr (config_of n nnodes rm) m).2 = Return mgr
    ∧ spec_total_devices (resource_pool_spec mgr)
      = n * nnodes
        + (if RewardModelConfig.enable_resource_pool rm
           then RewardModelConfig.n_gpus_per_node rm * RewardModelConfig.nnodes rm
           else 0).
Proof.
  intros Hnn Hv.
  destruct (split_pool_spec_halves n nnodes) as (a & c & Hspec & Hsum & _).
  destruct rm as [[] rn rnn].
  - destruct (Hv eq_refl) as [Hrn Hrnn]. simpl in Hrn, Hrnn.
    pose proof (init_with_reward_pool n nnodes rn rnn m Hrn Hrnn) as Hrun.
    unfold reward_pool_of in Hrun. rewrite Hrun. eexists. split; [done|].
    simpl. rewrite Hspec. simpl.
    rewrite !total_devices_replicate, !Z2Nat.id by lia.
    rewrite <- Hsum. ring.
  - rewrite init_without_reward_pool. eexists. split; [done|].
    simpl. rewrite Hspec. simpl.
    rewrite !total_devices_replicate, !Z2Nat.id by lia.
    rewrite <- Hsum. ring.
Qed.

(** Two nodes with four GPUs each and a reward pool of three nodes with
    two GPUs each: the plan asks for 8 + 6 GPUs. *)
Lemma plan_total_fourteen :
  ∃ mgr,
    (init_resource_pool_mgr (config_of 4 2 (reward_pool_of 2 3)) ∅).2
    = Return mgr
    ∧ spec_total_devices (resource_pool_spec mgr) = 14.
Proof.
  apply (plan_total_devices 4 2 (reward_pool_of 2 3) ∅).
  - lia.
  - apply reward_pool_of_valid; lia.
Defined.

(** ** Edge shapes and bounds *)

(** X4. A node count of zero or less is not rejected: the call returns, and
    both primary pools have an empty row. *)
Theorem nonpositive_nnodes_gives_empty_rows (n nnodes : Z)
    (rm : RewardModelConfig.t) (m : gmap Role string) :
  nnodes ≤ 0 → reward_pool_valid rm →
  ∃ mgr,
    (init_resource_pool_mgr (config_of n nnodes rm) m).2 = Return mgr
    ∧ dict_get (resource_pool_spec mgr) actor_rollout_ref_pool_id = Some []
    ∧ dict_get (resource_pool_spec mgr) critic_pool_id = Some [].
Proof.
  intros Hnn Hv.
  destruct (init_returns_halves n nnodes rm m Hv)
    as (mgr & a & c & Hrun & Hactor & Hcritic & _).
  exists mgr. rewrite Hrun, Hactor, Hcritic.
  by replace (Z.to_nat nnodes) with 0%nat by lia.
Qed.

(** Eight GPUs per node on a cluster of zero nodes. *)
Lemma zero_nodes_gives_empty_rows :
  ∃ mgr,
    (init_resource_pool_mgr (config_of 8 0 no_reward_pool) ∅).2 = Return mgr
    ∧ dict_get (resource_pool_spec mgr) actor_rollout_ref_pool_id = Some []
    ∧ dict_get (resource_pool_spec mgr) critic_pool_id = Some [].
Proof.
  apply (nonpositive_nnodes_gives_empty_rows 8 0 no_reward_pool ∅).
  - lia.
  - exact no_reward_pool_valid.
Defined.

(** X5. On a cluster of at least one node, every node of both primary pools
    gets at least one device exactly when a node has at least two GPUs. *)
Theorem every_pool_nonempty_iff_two_gpus (n nnodes : Z)
    (rm : RewardModelConfig.t) (m : gmap Role string) :
  1 ≤ nnodes → reward_pool_valid rm →
  ∃ mgr actor_row critic_row,
    (init_resource_pool_mgr (config_of n nnodes rm) m).2 = Return mgr
    ∧ dict_get (resource_pool_spec mgr) actor_rollout_ref_pool_id
      = Some actor_row
    ∧ dict_get (resource_pool_spec mgr) critic_pool_id = Some critic_row
    ∧ ((∀ x, x ∈ actor_row ++ critic_row → 1 ≤ x) ↔ 2 ≤ n).
Proof.
  intros Hnn Hv.
  destruct (init_returns_halves n nnodes rm m Hv)
    as (mgr & a & c & Hrun & Hactor & Hcritic & Hsum & Hdiff & Hc).
  exists mgr, (replicate (Z.to_nat nnodes) a), (replicate (Z.to_nat nnodes) c).
  rewrite Hrun. simpl. repeat split; try done.
  - intros Hall.
    assert (1 ≤ c) as Hc1.
    { apply Hall, elem_of_app. right. apply elem_of_replicate. split; [done|lia]. }
    Z.div_mod_to_equations; lia.
  - intros Hn x [Hx|Hx]%elem_of_app; apply elem_of_replicate in Hx as [-> _];
      Z.div_mod_to_equations; lia.
Qed.

(** One node with two GPUs: both counts are at least one. *)
Lemma two_gpus_every_pool_nonempty :
  ∃ mgr actor_row critic_row,
    (init_resource_pool_mgr (config_of 2 1 no_reward_pool) ∅).2 = Return mgr
    ∧ dict_get (resource_pool_spec mgr) actor_rollout_ref_pool_id
      = Some actor_row
    ∧ dict_get (resource_pool_spec mgr) critic_pool_id = Some critic_row
    ∧ ((∀ x, x ∈ actor_row ++ critic_row → 1 ≤ x) ↔ 2 ≤ 2).
Proof.
  apply (every_pool_nonempty_iff_two_gpus 2 1 no_reward_pool ∅).
  - lia.
  - exact no_reward_pool_valid.
Defined.

(** X6. With a GPU count per node that is not negative, no node of a primary
    pool is given a negative count or more than the GPUs of a node. *)
Theorem primary_counts_within_node (n nnodes : Z) (rm : RewardModelConfig.t)
    (m : gmap Role string) :
  0 ≤ n → reward_pool_valid rm →
  ∃ mgr actor_row critic_row,
    (init_resource_pool_mgr (config_of n nnodes rm) m).2 = Return mgr
    ∧ dict_get (resource_pool_spec mgr) actor_rollout_ref_pool_id
      = Some actor_row
    ∧ dict_get (resource_pool_spec mgr) critic_pool_id = Some critic_row
    ∧ ∀ x, x ∈ actor_row ++ critic_row → 0 ≤ x ≤ n.
Proof.
  intros Hn Hv.
  destruct (init_returns_halves n nnodes rm m Hv)
    as (mgr & a & c & Hrun & Hactor & Hcritic & Hsum & Hdiff & Hc).
  exists mgr, (replicate (Z.to_nat nnodes) a), (replicate (Z.to_nat nnodes) c).
  rewrite Hrun. simpl. do 3 (split; [done|]).
  intros x [Hx|Hx]%elem_of_app; apply elem_of_replicate in Hx as [-> _];
    Z.div_mod_to_equations; lia.
Qed.

(** Three nodes with seven GPUs each: all counts are between 0 and 7. *)
Lemma seven_gpus_counts_within_node :
  ∃ mgr actor_row critic_row,
    (init_resource_pool_mgr (config_of 7 3 no_reward_pool) ∅).2 = Return mgr
    ∧ dict_get (resource_pool_spec mgr) actor_rollout_ref_pool_id
      = Some actor_row
    ∧ dict_get (resource_pool_spec mgr) critic_pool_id = Some critic_row
    ∧ ∀ x, x ∈ actor_row ++ critic_row → 0 ≤ x ≤ 7.
Proof.
  apply (primary_counts_within_node 7 3 no_reward_pool ∅).
  - lia.
  - exact no_reward_pool_valid.
Defined.

(** ** The role table and the pools *)

(** X7. In the manager that a call returns, ActorRollout and Critic are bound
    to two different pool names, and both names are pools of its spec. *)
Theorem bound_roles_resolve_to_pools (n nnodes : Z) (rm : RewardModelConfig.t)
    (m : gmap Role string) :
  reward_pool_valid rm →
  ∃ mgr actor_pool critic_pool actor_row critic_row,
    (init_resource_pool_mgr (config_of n nnodes rm) m).2 = Return mgr
    ∧ mapping mgr !! ActorRollout = Some actor_pool
    ∧ mapping mgr !! Critic = Some critic_pool
    ∧ actor_pool ≠ critic_pool
    ∧ dict_get (resource_pool_spec mgr) actor_pool = Some actor_row
    ∧ dict_get (resource_pool_spec mgr) critic_pool = Some critic_row.
Proof.
  intros Hv.
  destruct (init_returns_primary_rows n nnodes rm m Hv)
    as (mgr & Hrun & Hmap & Hactor & Hcritic).
  destruct (split_pool_spec_halves n nnodes) as (a & c & Hspec & _).
  exists mgr, actor_rollout_ref_pool_id, critic_pool_id,
    (replicate (Z.to_nat nnodes) a), (replicate (Z.to_nat nnodes) c).
  rewrite Hrun, Hmap, Hactor, Hcritic, Hspec. unfold split_bindings. simpl.
  repeat split; try done; by simplify_map_eq.
Qed.

(** A role table that already binds both roles to the pool of the
    colocated placement: after the call they resolve in the new spec. *)
Lemma rebound_roles_resolve_to_pools :
  ∃ mgr actor_pool critic_pool actor_row critic_row,
    (init_resource_pool_mgr (config_of 4 2 (reward_pool_of 1 1))
       {[ActorRollout := "global_pool"; Critic := "global_pool"]}).2
    = Return mgr
    ∧ mapping mgr !! ActorRollout = Some actor_pool
    ∧ mapping mgr !! Critic = Some critic_pool
    ∧ actor_pool ≠ critic_pool
    ∧ dict_get (resource_pool_spec mgr) actor_pool = Some actor_row
    ∧ dict_get (resource_pool_spec mgr) critic_pool = Some critic_row.
Proof.
  apply (bound_roles_resolve_to_pools 4 2 (reward_pool_of 1 1)).
  apply reward_pool_of_valid; lia.
Defined.




(** X9. Whether the call returns or raises, the roles bound after it are the
    roles bound before it together with ActorRollout and Critic: no
    binding is removed and no third role is added.  A returned manager
    holds the role table as the call left it. *)
Theorem role_table_gains_two_roles (config : Config) (m : gmap Role string) :
  dom (init_resource_pool_mgr config m).1
  = {[ActorRollout; Critic]} ∪ dom m
  ∧ ∀ mgr, (init_resource_pool_mgr config m).2 = Return mgr →
      mapping mgr = (init_resource_pool_mgr config m).1.
Proof.
  destruct (init_factors config) as [o Ho]. rewrite Ho. simpl. split.
  - unfold split_bindings. rewrite !dom_insert_L. apply set_eq. intros r.
    rewrite !elem_of_union, !elem_of_singleton. tauto.
  - intros mgr Hmgr. destruct o; simpl in Hmgr; [|done].
    by injection Hmgr as <-.
Qed.

(** X10. A call leaves nothing behind that a later call can see: whatever the
    configuration of an earlier call, and whether it returned or raised,
    the next call gives the result and the role table it would have given
    without it.  So a call that failed can be repeated with the reward
    pool put right. *)
Theorem earlier_call_has_no_effect_on_later (config1 config2 : Config)
    (m : gmap Role string) :
  init_resource_pool_mgr config2 (init_resource_pool_mgr config1 m).1
  = init_resource_pool_mgr config2 m.
Proof.
  destruct (init_factors config1) as [o1 Ho1].
  destruct (init_factors config2) as [o2 Ho2].
  rewrite Ho1, !Ho2. simpl. by rewrite split_bindings_idemp.
Qed.

(** ** One more GPU, and the reward pool's entry *)

(** X11. One more GPU per node goes to exactly one pool and takes nothing from
    the other: to the actor pool when the count was even, to the critic
    pool when it was odd.  So neither pool ever shrinks when GPUs are
    added to the nodes. *)
Theorem one_more_gpu_goes_to_one_pool (n nnodes : Z) (rm : RewardModelConfig.t)
    (m : gmap Role string) :
  reward_pool_valid rm →
  ∃ mgr mgr' a c a' c',
    (init_resource_pool_mgr (config_of n nnodes rm) m).2 = Return mgr
    ∧ (init_resource_pool_mgr (config_of (n + 1) nnodes rm) m).2 = Return mgr'
    ∧ dict_get (resource_pool_spec mgr) actor_rollout_ref_pool_id
      = Some (replicate (Z.to_nat nnodes) a)
    ∧ dict_get (resource_pool_spec mgr) critic_pool_id
      = Some (replicate (Z.to_nat nnodes) c)
    ∧ dict_get (resource_pool_spec mgr') actor_rollout_ref_pool_id
      = Some (replicate (Z.to_nat nnodes) a')
    ∧ dict_get (resource_pool_spec mgr') critic_pool_id
      = Some (replicate (Z.to_nat nnodes) c')
    ∧ (n mod 2 = 0 ∧ a' = a + 1 ∧ c' = c
       ∨ n mod 2 = 1 ∧ a' = a ∧ c' = c + 1).
Proof.
  intros Hv.
  destruct (init_returns_halves n nnodes rm m Hv)
    as (mgr & a & c & Hrun & Hactor & Hcritic & Hsum & Hdiff & Hc).
  destruct (init_returns_halves (n + 1) nnodes rm m Hv)
    as (mgr' & a' & c' & Hrun' & Hactor' & Hcritic' & Hsum' & Hdiff' & Hc').
  exists mgr, mgr', a, c, a', c'. rewrite Hrun, Hrun'. simpl.
  do 6 (split; [done|]). Z.div_mod_to_equations; lia.
Qed.

(** From four to five GPUs per node on two nodes. *)
Lemma fifth_gpu_goes_to_one_pool :
  ∃ mgr mgr' a c a' c',
    (init_resource_pool_mgr (config_of 4 2 no_reward_pool) ∅).2 = Return mgr
    ∧ (init_resource_pool_mgr (config_of 5 2 no_reward_pool) ∅).2
      = Return mgr'
    ∧ dict_get (resource_pool_spec mgr) actor_rollout_ref_pool_id
      = Some [a; a]
    ∧ dict_get (resource_pool_spec mgr) critic_pool_id = Some [c; c]
    ∧ dict_get (resource_pool_spec mgr') actor_rollout_ref_pool_id
      = Some [a'; a']
    ∧ dict_get (resource_pool_spec mgr') critic_pool_id = Some [c'; c']
    ∧ (0 = 0 ∧ a' = a + 1 ∧ c' = c ∨ 0 = 1 ∧ a' = a ∧ c' = c + 1).
Proof.
  apply (one_more_gpu_goes_to_one_pool 4 2 no_reward_pool ∅).
  exact no_reward_pool_valid.
Defined.

(** X12. The returned spec has an entry named reward_pool exactly when the
    reward pool is enabled: three pools then, and two otherwise. *)
Theorem reward_pool_entry_iff_enabled (n nnodes : Z) (rm : RewardModelConfig.t)
    (m : gmap Role string) :
  reward_pool_valid rm →
  ∃ mgr,
    (init_resource_pool_mgr (config_of n nnodes rm) m).2 = Return mgr
    ∧ (is_Some (dict_get (resource_pool_spec mgr) "reward_pool")
       ↔ RewardModelConfig.enable_resource_pool rm = true)
    ∧ length (resource_pool_spec mgr)
      = if RewardModelConfig.enable_resource_pool rm then 3%nat else 2%nat.
Proof.
  intros Hv.
  destruct (split_pool_spec_halves n nnodes) as (a & c & Hspec & _).
  destruct rm as [[] rn rnn].
  - destruct (Hv eq_refl) as [Hrn Hrnn]. simpl in Hrn, Hrnn.
    pose proof (init_with_reward_pool n nnodes rn rnn m Hrn Hrnn) as Hrun.
    unfold reward_pool_of in Hrun. rewrite Hrun. eexists. split; [done|].
    simpl. rewrite dict_get_setitem_eq, Hspec. by split.
  - rewrite init_without_reward_pool. eexists. split; [done|].
    simpl. rewrite Hspec. split; [|done].
    split; [intros [row Hrow]; discriminate Hrow | discriminate].
Qed.

(** A disabled reward pool with counts left at zero: two pools, none of
    them named reward_pool. *)
Lemma disabled_reward_pool_has_no_entry :
  ∃ mgr,
    (init_resource_pool_mgr (config_of 4 2 no_reward_pool) ∅).2 = Return mgr
    ∧ (is_Some (dict_get (resource_pool_spec mgr) "reward_pool")
       ↔ false = true)
    ∧ length (resource_pool_spec mgr) = 2%nat.
Proof.
  apply (reward_pool_entry_iff_enabled 4 2 no_reward_pool ∅).
  exact no_reward_pool_valid.
Defined.
